(** * DevOps-Guardian: watermarking module, SQL migration and configuration

    A shallow embedding of
    - [src/watermarking.js]: the license check, the integrity check, the
      start-up routine and the Vite watermark plugin;
    - [src/create_enum.sql]: the migration that adds the
      [transaction_type] enum and the [check_interval] column;
    - the configuration objects shown in [src/README.md];
    - the retry policy of the monitoring core, which the repository only
      describes (modelled from the spec). *)

From Stdlib Require Import ZArith Lia Ascii String List.
From stdpp Require Import base gmap strings pretty.
Import ListNotations.
Open Scope string_scope.
Open Scope Z_scope.

(* ------------------------------------------------------------------ *)
(** ** JavaScript strings *)

(** JS strings are modelled as Rocq byte strings (their UTF-8 encoding),
    so [Buffer.from(s)] is the list of bytes of [s]. *)
Module JsString.

(** [s.startsWith(p)] at position 0. *)
Fixpoint startsWith (s p : string) : bool :=
  match p, s with
  | EmptyString, _ => true
  | String c p', String d s' => Ascii.eqb c d && startsWith s' p'
  | String _ _, EmptyString => false
  end.

(** [s.includes(p)]: some suffix of [s] starts with [p]. *)
Fixpoint includes (s p : string) : bool :=
  startsWith s p ||
  match s with
  | EmptyString => false
  | String _ s' => includes s' p
  end.

(** [s.endsWith(e)]. *)
Definition endsWith (s e : string) : bool :=
  (String.length e <=? String.length s)%nat &&
  String.eqb (substring (String.length s - String.length e) (String.length e) s) e.

(** [s.substring(0, n)]. *)
Definition prefix_n (n : nat) (s : string) : string := substring 0 n s.

(** JS truthiness of a possibly-undefined string: [undefined] and [""]
    are falsy. *)
Definition truthy (v : option string) : bool :=
  match v with
  | Some s => negb (String.eqb s "")
  | None => false
  end.

(** [v || d] on a possibly-undefined string. *)
Definition or_default (v : option string) (d : string) : string :=
  match v with
  | Some s => if truthy (Some s) then s else d
  | None => d
  end.

(** [String(n)] for an integer-valued number. *)
Definition of_Z (z : Z) : string := pretty z.

End JsString.

(** A process environment: [process.env.NAME] is [env NAME]. *)
Definition Env := string -> option string.

(* ------------------------------------------------------------------ *)
(** ** Dates (milliseconds since the epoch, UTC) *)

Module JsDate.

Definition ms_per_day : Z := 86400000.

(** Days since 1970-01-01 of a proleptic Gregorian civil date. *)
Definition days_from_civil (y m d : Z) : Z :=
  let y' := if m <=? 2 then y - 1 else y in
  let era := y' / 400 in
  let yoe := y' - era * 400 in
  let mp := (m + 9) mod 12 in
  let doy := (153 * mp + 2) / 5 + d - 1 in
  let doe := yoe * 365 + yoe / 4 - yoe / 100 + doy in
  era * 146097 + doe - 719468.

(** Civil date (year, month, day) of a day count since 1970-01-01. *)
Definition civil_from_days (z : Z) : Z * Z * Z :=
  let z' := z + 719468 in
  let era := z' / 146097 in
  let doe := z' - era * 146097 in
  let yoe := (doe - doe / 1460 + doe / 36524 - doe / 146096) / 365 in
  let y := yoe + era * 400 in
  let doy := doe - (365 * yoe + yoe / 4 - yoe / 100) in
  let mp := (5 * doy + 2) / 153 in
  let d := doy - (153 * mp + 2) / 5 + 1 in
  let m := if mp <? 10 then mp + 3 else mp - 9 in
  (if m <=? 2 then y + 1 else y, m, d).

Definition digit (c : ascii) : option Z :=
  let n := Z.of_nat (nat_of_ascii c) - 48 in
  if (0 <=? n) && (n <=? 9) then Some n else None.

Fixpoint digits (s : string) (acc : Z) : option Z :=
  match s with
  | EmptyString => Some acc
  | String c s' =>
      match digit c with
      | Some n => digits s' (acc * 10 + n)
      | None => None
      end
  end.

(** [new Date(s).getTime()] for the ISO date-only form [YYYY-MM-DD],
    which ECMAScript reads as UTC midnight; [None] is an Invalid Date
    (NaN). Other string forms are read as invalid. *)
Definition parse (s : string) : option Z :=
  if (String.length s =? 10)%nat
     && String.eqb (substring 4 1 s) "-" && String.eqb (substring 7 1 s) "-"
  then
    match digits (substring 0 4 s) 0, digits (substring 5 2 s) 0,
          digits (substring 8 2 s) 0 with
    | Some y, Some m, Some d =>
        if (1 <=? m) && (m <=? 12) && (1 <=? d) && (d <=? 31)
        then Some (days_from_civil y m d * ms_per_day)
        else None
    | _, _, _ => None
    end
  else None.

(** [new Date(v)] of a possibly-undefined value: [undefined] gives NaN. *)
Definition of_value (v : option string) : option Z :=
  match v with Some s => parse s | None => None end.

(** [a < b] on Date objects: compares time values; NaN compares false. *)
Definition lt (a : option Z) (b : Z) : bool :=
  match a with Some t => t <? b | None => false end.

Definition pad (w : nat) (z : Z) : string :=
  let s := JsString.of_Z z in
  String.append (string_of_list_ascii (repeat "0"%char (w - String.length s))) s.

(** [d.toISOString()] for [0 <= t]. *)
Definition toISOString (t : Z) : string :=
  let days := t / ms_per_day in
  let msd := t mod ms_per_day in
  let '(y, mo, d) := civil_from_days days in
  pad 4 y ++ "-" ++ pad 2 mo ++ "-" ++ pad 2 d ++ "T" ++
  pad 2 (msd / 3600000) ++ ":" ++ pad 2 ((msd / 60000) mod 60) ++ ":" ++
  pad 2 ((msd / 1000) mod 60) ++ "." ++ pad 3 (msd mod 1000) ++ "Z".

(** [d.getFullYear()]: the year in local time, [offset] being the
    host's local-time offset in milliseconds at that instant. *)
Definition getFullYear (offset t : Z) : Z :=
  let '(y, _, _) := civil_from_days ((t + offset) / ms_per_day) in y.

End JsDate.

(* ------------------------------------------------------------------ *)
(** ** Console output and exceptions *)

(** What the module writes to the console. [LError msg e] is
    [console.error(msg)] or [console.error(msg, e)]. *)
Inductive jsexn :=
  | TypeError (msg : string)
  | OtherError (msg : string).

Inductive log :=
  | LWarn (msg : string)
  | LError (msg : string) (detail : option jsexn)
  | LDebug (msg : string).

(** Computations that write to the console and may throw: the console
    is the list of lines written so far. *)
Definition M (A : Type) : Type := list log -> list log * (jsexn + A).

Global Instance M_ret : MRet M := fun A x out => (out, inr x).
Global Instance M_bind : MBind M := fun A B f m out =>
  match m out with
  | (out', inl e) => (out', inl e)
  | (out', inr x) => f x out'
  end.

Definition throw {A} (e : jsexn) : M A := fun out => (out, inl e).

Definition emit (l : log) : M unit := fun out => (app out [l], inr tt).

(** [try { m } catch (e) { h(e) }]. *)
Definition try_catch {A} (m : M A) (h : jsexn -> M A) : M A := fun out =>
  match m out with
  | (out', inl e) => h e out'
  | r => r
  end.

(** Run from an empty console. *)
Definition run {A} (m : M A) : list log * (jsexn + A) := m [].

(* ------------------------------------------------------------------ *)
(** ** [verifyLicense] and [decodeLicenseKey] *)

(** The object returned by a license decoder; a missing property is
    [None] ([undefined]). *)
Record License := {
  expiresAt : option string;
  allowedInstances : option (list string);
  features : option (list string);
  customer : option string
}.

(** A decoder returns a value ([None] for [null]/[undefined]) or throws. *)
Definition Decoder := string -> M (option License).

(** [decodeLicenseKey]: the placeholder, which ignores its key. *)
Definition decodeLicenseKey : Decoder := fun _ =>
  mret (Some {|
    expiresAt := Some "2026-12-31";
    allowedInstances := Some ["default-instance"; "production-1"; "staging-1"];
    features := Some ["all"];
    customer := Some "Example Customer" |}).

(** Reading a property of [null]/[undefined] throws a TypeError. *)
Definition get_obj (v : option License) : M License :=
  match v with
  | Some l => mret l
  | None => throw (TypeError "Cannot read properties of undefined")
  end.

Definition get_list (v : option (list string)) : M (list string) :=
  match v with
  | Some l => mret l
  | None => throw (TypeError "Cannot read properties of undefined (reading 'includes')")
  end.

(** [arr.includes(x)] on strings. *)
Definition list_includes (xs : list string) (x : string) : bool :=
  existsb (String.eqb x) xs.

(** The body of the [try] block of [verifyLicense]; [now] is the time
    value of [new Date()]. *)
Definition verify_body (decode : Decoder) (licenseKey instanceId : string)
    (now : Z) : M bool :=
  v ← decode licenseKey;
  decodedLicense ← get_obj v;
  if JsDate.lt (JsDate.of_value (expiresAt decodedLicense)) now then
    _ ← emit (LWarn "License has expired");
    mret false
  else
    insts ← get_list (allowedInstances decodedLicense);
    if negb (list_includes insts instanceId) then
      _ ← emit (LWarn "Instance ID not authorized for this license");
      mret false
    else mret true.

(** [verifyLicense], for any decoder. *)
Definition verifyLicenseWith (decode : Decoder) (licenseKey instanceId : string)
    (now : Z) : M bool :=
  try_catch (verify_body decode licenseKey instanceId now)
    (fun error =>
       _ ← emit (LError "Error verifying license:" (Some error));
       mret false).

(** [verifyLicense] of the module, with the placeholder decoder. *)
Definition verifyLicense (licenseKey instanceId : string) (now : Z) : M bool :=
  verifyLicenseWith decodeLicenseKey licenseKey instanceId now.

(** The boolean returned when the call completes normally. *)
Definition returned (r : list log * (jsexn + bool)) : option bool :=
  match r with (_, inr b) => Some b | (_, inl _) => None end.

(* ------------------------------------------------------------------ *)
(** ** [Buffer.from(s).toString('base64')] *)

Module Base64.

Definition alphabet : string :=
  "ABCDEFGHIJKLMNOPQRSTUVWXYZabcdefghijklmnopqrstuvwxyz0123456789+/".

Definition char (n : Z) : ascii :=
  match String.get (Z.to_nat n) alphabet with Some c => c | None => "="%char end.

Definition pad_char : ascii := "="%char.

Fixpoint encode_bytes (l : list Z) : string :=
  match l with
  | a :: b :: c :: rest =>
      let n := a * 65536 + b * 256 + c in
      String (char (n / 262144)) (String (char ((n / 4096) mod 64))
        (String (char ((n / 64) mod 64)) (String (char (n mod 64))
          (encode_bytes rest))))
  | [a; b] =>
      let n := a * 65536 + b * 256 in
      String (char (n / 262144)) (String (char ((n / 4096) mod 64))
        (String (char ((n / 64) mod 64)) (String pad_char EmptyString)))
  | [a] =>
      let n := a * 65536 in
      String (char (n / 262144)) (String (char ((n / 4096) mod 64))
        (String pad_char (String pad_char EmptyString)))
  | [] => EmptyString
  end.

Definition bytes_of (s : string) : list Z :=
  map (fun c => Z.of_nat (nat_of_ascii c)) (list_ascii_of_string s).

Definition of_string (s : string) : string := encode_bytes (bytes_of s).

End Base64.

(* ------------------------------------------------------------------ *)
(** ** [checkCodeIntegrity], [generateSourceWatermark],
       [initializeWatermarking] *)

(** [checkCodeIntegrity]: the placeholder. *)
Definition checkCodeIntegrity (_ : unit) : bool := true.

(** The clock readings of one call of [initializeWatermarking]: the
    [new Date()] of [verifyLicense], then the two of
    [generateSourceWatermark]. *)
Record Clock := { t_license : Z; t_stamp : Z; t_year : Z }.

Section Watermarking.

(** Node's [crypto.createHmac('sha256', key).update(data).digest('hex')],
    a library primitive. *)
Variable hmac_sha256_hex : string -> string -> string.
(** The host's local-time offset (milliseconds) at an instant. *)
Variable local_offset : Z -> Z.

Definition generateSourceWatermark (key instanceId : string) (t1 t2 : Z) : string :=
  let timestamp := JsDate.toISOString t1 in
  let data := instanceId ++ "-" ++ timestamp in
  let hash := JsString.prefix_n 16 (hmac_sha256_hex key data) in
  "DGWM-" ++ hash ++ "-" ++ JsString.of_Z (JsDate.getFullYear (local_offset t2) t2).

Definition initializeWatermarking (env : Env) (clk : Clock) : M unit :=
  let licenseKey := env "LICENSE_KEY" in
  let instanceId := JsString.or_default (env "INSTANCE_ID") "default-instance" in
  _ ← (if negb (JsString.truthy licenseKey) then
         emit (LWarn "Application running in unregistered mode")
       else
         isValid ← verifyLicense (default "" licenseKey) instanceId (t_license clk);
         if negb isValid then emit (LError "Invalid license detected" None)
         else mret tt);
  let codeIntegrity := checkCodeIntegrity tt in
  _ ← (if negb codeIntegrity then
         emit (LError "Code integrity violation detected" None)
       else mret tt);
  let watermark :=
    generateSourceWatermark (JsString.or_default (env "WATERMARK_KEY") "default-key")
      instanceId (t_stamp clk) (t_year clk) in
  emit (LDebug ("Application initialized " ++ Base64.of_string watermark)).

End Watermarking.

(* ------------------------------------------------------------------ *)
(** ** The Vite plugin [watermarkPlugin] *)

(** The [options] object; [None] is a property left [undefined], which
    the destructuring replaces by its default. *)
Record PluginOptions := {
  licenseHolder : option string;
  version : option string;
  exclude : option (list string);
  include : option (list string);
  customText : option string;
  encodeWatermark : option bool
}.

Definition no_options : PluginOptions :=
  {| licenseHolder := None; version := None; exclude := None;
     include := None; customText := None; encodeWatermark := None |}.

(** The returned plugin object; [transform] returns [None] for [null]. *)
Record Plugin := {
  plugin_name : string;
  transform : string -> string -> option string
}.

Definition newline : string := String (ascii_of_nat 10) EmptyString.

(** Files excluded from watermarking by default. *)
Definition default_exclude : list string := ["node_modules"; ".json"; ".css"; ".html"].

(** File extensions watermarked by default. *)
Definition default_include : list string := [".js"; ".jsx"; ".ts"; ".tsx"].

(** [env] is [process.env] and [now] the [Date.now()] taken as build id. *)
Definition watermarkPlugin (env : Env) (now : Z) (options : PluginOptions) : Plugin :=
  let licenseHolder :=
    default (JsString.or_default (env "LICENSE_HOLDER") "Unregistered")
      (licenseHolder options) in
  let version :=
    default (JsString.or_default (env "npm_package_version") "1.0.0")
      (version options) in
  let exclude := default default_exclude (exclude options) in
  let include := default default_include (include options) in
  let customText := default "" (customText options) in
  let encodeWatermark := default false (encodeWatermark options) in
  let buildId := now in
  {| plugin_name := "devops-guardians-watermark";
     transform := fun code id =>
       if existsb (fun pattern => JsString.includes id pattern) exclude then None
       else if negb (existsb (fun ext => JsString.endsWith id ext) include) then None
       else
         let watermark := "/* DevOps-guardians v" ++ version ++ " - Licensed to: "
                          ++ licenseHolder ++ " - Build: " ++ JsString.of_Z buildId in
         let watermark := if JsString.truthy (Some customText)
                          then watermark ++ " - " ++ customText else watermark in
         let watermark := watermark ++ " */" in
         let watermark := if encodeWatermark
                          then "/* " ++ Base64.of_string watermark ++ " */"
                          else watermark in
         Some (watermark ++ newline ++ code) |}.

(* ------------------------------------------------------------------ *)
(** ** The SQL migration [create_enum.sql] *)

Module Sql.

Inductive value := VInt (z : Z) | VText (s : string) | VNull.

Inductive coltype := TInteger | TText | TNamed (name : string).

Record Column := {
  col_name : string;
  col_type : coltype;
  col_not_null : bool;
  col_default : option value
}.

(** A table: its columns in order and its rows, one value per column. *)
Record Table := { columns : list Column; rows : list (list value) }.

Inductive TypeDef := EnumType (labels : list string) | OtherType.

(** The catalog: user-defined types and tables, by name. *)
Record Schema := {
  types : gmap string TypeDef;
  tables : gmap string Table
}.

(** [EXISTS (SELECT 1 FROM pg_type WHERE typname = n)]: [pg_type] lists
    the declared types and the row type of every table. *)
Definition type_exists (s : Schema) (n : string) : bool :=
  bool_decide (is_Some (types s !! n)) || bool_decide (is_Some (tables s !! n)).

(** [EXISTS (SELECT 1 FROM information_schema.columns
             WHERE table_name = t AND column_name = c)]. *)
Definition column_exists (s : Schema) (t c : string) : bool :=
  match tables s !! t with
  | Some tb => existsb (fun col => String.eqb (col_name col) c) (columns tb)
  | None => false
  end.

(** A statement either fails with an error message or yields the new
    catalog. *)
Definition Stmt := Schema -> string + Schema.

(** [CREATE TYPE n AS ENUM (labels)]. *)
Definition create_enum (n : string) (labels : list string) : Stmt := fun s =>
  if type_exists s n then inl ("type " ++ n ++ " already exists")
  else inr {| types := <[n := EnumType labels]> (types s); tables := tables s |}.

(** [ALTER TABLE t ADD COLUMN col]: existing rows receive the default
    ([NULL] without one, which a NOT NULL column refuses). *)
Definition add_column (t : string) (col : Column) : Stmt := fun s =>
  match tables s !! t with
  | None => inl ("relation " ++ t ++ " does not exist")
  | Some tb =>
      if existsb (fun c => String.eqb (col_name c) (col_name col)) (columns tb)
      then inl ("column " ++ col_name col ++ " already exists")
      else
        let v := default VNull (col_default col) in
        let v_is_null := match v with VNull => true | _ => false end in
        if col_not_null col && v_is_null && negb (bool_decide (length (rows tb) = 0%nat))
        then inl ("column " ++ col_name col ++ " contains null values")
        else inr {| types := types s;
                    tables := <[t := {| columns := app (columns tb) [col];
                                        rows := map (fun r => app r [v]) (rows tb) |}]>
                                (tables s) |}
  end.

Definition transaction_type_labels : list string :=
  ["api"; "content"; "form"; "navigation"].

(** [check_interval integer NOT NULL DEFAULT 300]. *)
Definition check_interval_column : Column :=
  {| col_name := "check_interval"; col_type := TInteger;
     col_not_null := true; col_default := Some (VInt 300) |}.

(** The first [DO] block. *)
Definition do_create_transaction_type : Stmt := fun s =>
  if negb (type_exists s "transaction_type")
  then create_enum "transaction_type" transaction_type_labels s
  else inr s.

(** The second [DO] block. *)
Definition do_add_check_interval : Stmt := fun s =>
  if negb (column_exists s "synthetic_transactions" "check_interval")
  then add_column "synthetic_transactions" check_interval_column s
  else inr s.

Definition migration : list Stmt := [do_create_transaction_type; do_add_check_interval].

(** Running a script as [psql] does by default: each statement commits
    on its own, and a failing statement is reported and skipped. *)
Fixpoint run_script (script : list Stmt) (s : Schema) : Schema * list string :=
  match script with
  | [] => (s, [])
  | st :: rest =>
      match st s with
      | inl err => let '(s', errs) := run_script rest s in (s', err :: errs)
      | inr s1 => run_script rest s1
      end
  end.

(** A catalog before the migration: [synthetic_transactions] with an
    [id] column and one row, and no user-defined type. *)
Definition example_table : Table :=
  {| columns := [{| col_name := "id"; col_type := TInteger;
                    col_not_null := true; col_default := None |}];
     rows := [[VInt 1]] |}.

Definition example_catalog : Schema :=
  {| types := ∅; tables := <["synthetic_transactions" := example_table]> ∅ |}.

End Sql.

(* ------------------------------------------------------------------ *)
(** ** Configuration objects of [src/README.md] *)

Module Config.

Record MonitoringConfig := {
  defaultCheckInterval : Z;
  defaultTimeout : Z;
  maxRetries : Z;
  retryDelay : Z;
  metricRetention : Z
}.

Definition monitoringConfig : MonitoringConfig :=
  {| defaultCheckInterval := 60; defaultTimeout := 30; maxRetries := 3;
     retryDelay := 5; metricRetention := 365 |}.

(** [parseInt(s, 10)]: optional leading white space and sign, then the
    longest run of decimal digits; [None] is NaN. *)
Fixpoint leading_digits (s : string) (acc : option Z) : option Z :=
  match s with
  | String c s' =>
      match JsDate.digit c with
      | Some n => leading_digits s' (Some (default 0 acc * 10 + n))
      | None => acc
      end
  | EmptyString => acc
  end.

Fixpoint parseInt (s : string) : option Z :=
  match s with
  | String " " s' => parseInt s'
  | String "-" s' => option_map Z.opp (leading_digits s' None)
  | String "+" s' => leading_digits s' None
  | _ => leading_digits s None
  end.

Record SmtpAuth := { user : option string; pass : option string }.

Record EmailConfig := {
  email_enabled : bool;
  host : option string;
  port : option Z;
  secure : bool;
  auth : SmtpAuth;
  from : string
}.

Record TwilioConfig := {
  twilio_enabled : bool;
  accountSid : option string;
  authToken : option string;
  phoneNumber : option string
}.

Record NotificationConfig := {
  email : EmailConfig;
  sms : TwilioConfig;
  call : TwilioConfig
}.

(** [process.env.X ? true : false]. *)
Definition env_flag (env : Env) (x : string) : bool := JsString.truthy (env x).

Definition twilio (env : Env) : TwilioConfig :=
  {| twilio_enabled := env_flag env "TWILIO_ACCOUNT_SID";
     accountSid := env "TWILIO_ACCOUNT_SID";
     authToken := env "TWILIO_AUTH_TOKEN";
     phoneNumber := env "TWILIO_PHONE_NUMBER" |}.

Definition notificationConfig (env : Env) : NotificationConfig :=
  {| email := {| email_enabled := env_flag env "SMTP_HOST";
                 host := env "SMTP_HOST";
                 port := parseInt (JsString.or_default (env "SMTP_PORT") "587");
                 secure := bool_decide (env "SMTP_SECURE" = Some "true");
                 auth := {| user := env "SMTP_USER"; pass := env "SMTP_PASSWORD" |};
                 from := JsString.or_default (env "EMAIL_FROM") "alerts@devops-guardian.com" |};
     sms := twilio env;
     call := twilio env |}.

End Config.

(* ------------------------------------------------------------------ *)
(** ** Retry Coordinator of the monitoring core *)

Module Retry.

Inductive Outcome := Success | Failure | Timeout.

(** The per-transaction retry settings (seconds). *)
Record Policy := { timeout : Z; maxRetries : nat; retryDelay : Z }.

Definition default_policy : Policy :=
  {| timeout := Config.defaultTimeout Config.monitoringConfig;
     maxRetries := Z.to_nat (Config.maxRetries Config.monitoringConfig);
     retryDelay := Config.retryDelay Config.monitoringConfig |}.

(** A probe run: its outcome and duration in seconds if left unbounded,
    for each attempt number. *)
Definition Probe := nat -> Outcome * Z.

(** Modelled from the spec: the Probe Executor (section 4.1), which is
    not part of the repository. One attempt returns within [timeout]
    seconds, or is abandoned at [timeout] with outcome [Timeout]. *)
Definition probeExecutor (timeout : Z) (raw : Outcome * Z) : Outcome * Z :=
  let '(o, d) := raw in
  if timeout <? d then (Timeout, timeout) else (o, d).

Record CheckResult := {
  outcome : Outcome;
  attempt : nat;
  elapsed : Z;
  attempts_made : list nat
}.

(** Modelled from the spec: the Retry Coordinator (section 4.2), which
    is not part of the repository. Attempt [n] runs the probe; a
    success ends the run; a failure or timeout waits [retryDelay] and
    tries again while retries are left, and is final otherwise. *)
Fixpoint retry_loop (p : Policy) (probe : Probe) (fuel n : nat) (t : Z)
    (made : list nat) : CheckResult :=
  let '(o, d) := probeExecutor (timeout p) (probe n) in
  let t' := t + d in
  let made' := app made [n] in
  match o, fuel with
  | Success, _ => {| outcome := Success; attempt := n; elapsed := t'; attempts_made := made' |}
  | _, O => {| outcome := o; attempt := n; elapsed := t'; attempts_made := made' |}
  | _, S f => retry_loop p probe f (S n) (t' + retryDelay p) made'
  end.

Definition runCheck (p : Policy) (probe : Probe) : CheckResult :=
  retry_loop p probe (maxRetries p) 1 0 [].

End Retry.

(* ------------------------------------------------------------------ *)
(** ** [generateBuildWatermark] and the plugin's [transformIndexHtml] *)

(** [generateBuildWatermark(licenseHolder, version)]; [buildId] is its
    [Date.now()]. *)
Definition generateBuildWatermark (licenseHolder version : string) (buildId : Z) : string :=
  "/* DevOps-guardians v" ++ version ++ " - Licensed to: " ++ licenseHolder ++
  " - Build: " ++ JsString.of_Z buildId ++ " */".

Module JsReplace.

(** Whether character [c] occurs in [s]. *)
Fixpoint has_char (c : ascii) (s : string) : bool :=
  match s with
  | EmptyString => false
  | String d s' => Ascii.eqb d c || has_char c s'
  end.

(** [s] without its first [n] characters. *)
Fixpoint drop (n : nat) (s : string) : string :=
  match n, s with
  | O, _ => s
  | S n', String _ s' => drop n' s'
  | S _, EmptyString => EmptyString
  end.

(** The first occurrence of [pat] in [s]: the text before it and the
    text after it. *)
Fixpoint split_first (pat s : string) : option (string * string) :=
  if JsString.startsWith s pat then Some (EmptyString, drop (String.length pat) s)
  else
    match s with
    | EmptyString => None
    | String c s' =>
        match split_first pat s' with
        | Some (pre, post) => Some (String c pre, post)
        | None => None
        end
    end.

(** ECMAScript GetSubstitution for a string pattern (no capture groups):
    [$$], [$&], [$`] and [$'] are replaced, everything else is kept. *)
Fixpoint getSubstitution (matched before after rep : string) : string :=
  match rep with
  | EmptyString => EmptyString
  | String c r =>
      if Ascii.eqb c "$"%char then
        match r with
        | String d r' =>
            if Ascii.eqb d "$"%char then String "$"%char (getSubstitution matched before after r')
            else if Ascii.eqb d "&"%char then matched ++ getSubstitution matched before after r'
            else if Ascii.eqb d "`"%char then before ++ getSubstitution matched before after r'
            else if Ascii.eqb d "'"%char then after ++ getSubstitution matched before after r'
            else String c (getSubstitution matched before after r)
        | EmptyString => String c EmptyString
        end
      else String c (getSubstitution matched before after r)
  end.

(** [s.replace(pat, rep)] with a string [pat]: only the first occurrence
    is replaced. *)
Definition replace (s pat rep : string) : string :=
  match split_first pat s with
  | None => s
  | Some (pre, post) => pre ++ getSubstitution pat pre post rep ++ post
  end.

End JsReplace.

(** The double quote character. *)
Definition dquote : string := String (ascii_of_nat 34) EmptyString.

(** [<meta name="build-id" content="${buildId}">]. *)
Definition buildMeta (buildId : Z) : string :=
  "<meta name=" ++ dquote ++ "build-id" ++ dquote ++ " content=" ++ dquote ++
  JsString.of_Z buildId ++ dquote ++ ">".

(** The plugin's [transformIndexHtml(html)]; [buildId] is the
    [Date.now()] taken when the plugin was created. *)
Definition transformIndexHtml (buildId : Z) (html : string) : string :=
  JsReplace.replace html "</head>" ("  " ++ buildMeta buildId ++ newline ++ "</head>").

(* ================================================================== *)
(** * Properties *)

(** ** License check *)

(** Unfolds the console/exception monad. *)
Ltac unfold_M :=
  cbv [mbind M_bind mret M_ret throw emit try_catch get_obj get_list run] in *.

Lemma list_includes_In (xs : list string) (x : string) :
  list_includes xs x = true <-> In x xs.
Proof.
  unfold list_includes. rewrite existsb_exists. split.
  - intros (y & Hy & Heq). apply String.eqb_eq in Heq. subst. exact Hy.
  - intros H. exists x. split; [exact H | apply String.eqb_refl].
Qed.

(** The placeholder expiry date is 2026-12-31T00:00:00.000Z. *)
Lemma placeholder_expiry_time :
  JsDate.parse "2026-12-31" = Some 1798675200000.
Proof. vm_compute. reflexivity. Qed.

(** Claim C1 as stated fails: at 01:00 UTC on 2026-12-31 (a time whose
    calendar date is 2026-12-31 or 2026-12-30 in every time zone), the
    instance [default-instance] is refused, while the claim expects it
    to be accepted. *)
Lemma verifyLicense_rejects_on_expiry_day :
  ~ (forall (licenseKey instanceId : string) (now : Z),
       returned (run (verifyLicense licenseKey instanceId now)) = Some true <->
       (now / JsDate.ms_per_day <= JsDate.days_from_civil 2026 12 31 /\
        In instanceId ["default-instance"; "production-1"; "staging-1"])).
Proof.
  intros H.
  specialize (H "key" "default-instance" (1798675200000 + 3600000)).
  vm_compute in H. destruct H as [_ H].
  assert (Some false = Some true) by (apply H; split; [discriminate | left; reflexivity]).
  discriminate.
Qed.

(** Claim C1 (amended). For any decoder, [verifyLicense] returns [true]
    exactly when decoding yields an object whose [new Date(expiresAt)]
    is not before the current time value and whose [allowedInstances]
    contains [instanceId]. With the placeholder decoder, it returns
    [true] exactly when the current time is at or before
    2026-12-31T00:00:00.000Z (1798675200000 ms) and [instanceId] is one
    of [default-instance], [production-1], [staging-1]. *)
Theorem verifyLicense_true_iff :
  (forall (decode : Decoder) (licenseKey instanceId : string) (now : Z),
     returned (run (verifyLicenseWith decode licenseKey instanceId now)) = Some true <->
     exists out lic insts,
       decode licenseKey [] = (out, inr (Some lic)) /\
       JsDate.lt (JsDate.of_value (expiresAt lic)) now = false /\
       allowedInstances lic = Some insts /\ In instanceId insts) /\
  (forall (licenseKey instanceId : string) (now : Z),
     returned (run (verifyLicense licenseKey instanceId now)) = Some true <->
     now <= 1798675200000 /\
     In instanceId ["default-instance"; "production-1"; "staging-1"]).
Proof.
  split.
  - intros decode licenseKey instanceId now.
    unfold verifyLicenseWith, verify_body. unfold_M.
    destruct (decode licenseKey []) as [out r] eqn:Hd.
    destruct r as [e | [lic | ]]; cbn.
    + split; [discriminate | intros (? & ? & ? & H & _); congruence].
    + destruct (JsDate.lt (JsDate.of_value (expiresAt lic)) now) eqn:Hlt; cbn.
      * split; [discriminate | intros (? & ? & ? & H & Hlt' & _); congruence].
      * destruct (allowedInstances lic) as [insts | ] eqn:Ha; cbn.
        -- destruct (list_includes insts instanceId) eqn:Hi; cbn.
           ++ split; [intros _ | reflexivity].
              exists out, lic, insts. repeat split; auto.
              apply list_includes_In; exact Hi.
           ++ split; [discriminate | ].
              intros (? & lic' & insts' & H & _ & Ha' & Hin).
              inversion H; subst. rewrite Ha in Ha'. inversion Ha'; subst.
              apply list_includes_In in Hin. congruence.
        -- split; [discriminate | ].
           intros (? & lic' & ? & H & _ & Ha' & _). inversion H; subst. congruence.
    + split; [discriminate | intros (? & ? & ? & H & _); congruence].
  - intros licenseKey instanceId now.
    unfold verifyLicense, verifyLicenseWith, verify_body, decodeLicenseKey. unfold_M.
    cbn [expiresAt allowedInstances].
    rewrite (placeholder_expiry_time : JsDate.of_value (Some "2026-12-31") = Some 1798675200000).
    unfold JsDate.lt.
    destruct (1798675200000 <? now) eqn:Hlt; cbn -[list_includes].
    + split; [discriminate | intros [H _]; apply Z.ltb_lt in Hlt; lia].
    + apply Z.ltb_ge in Hlt.
      destruct (list_includes ["default-instance"; "production-1"; "staging-1"] instanceId)
        eqn:Hi; cbn -[list_includes].
      * split; [intros _; split; [lia | exact (proj1 (list_includes_In _ _) Hi)] | reflexivity].
      * split; [discriminate | intros [_ Hin]].
        pose proof (proj2 (list_includes_In ["default-instance"; "production-1"; "staging-1"]
                             instanceId) Hin). congruence.
Qed.

(** Claim C9. [verifyLicense] never lets an exception escape, whatever
    the decoder does (throw, return [undefined], or return an object
    lacking [allowedInstances]): the call always completes normally with
    a boolean, and when the body of its [try] block throws [e], the call
    logs [e] with [console.error] and returns [false]. *)
Theorem verifyLicense_total :
  forall (decode : Decoder) (licenseKey instanceId : string) (now : Z)
         (out : list log),
    (exists out' b, verifyLicenseWith decode licenseKey instanceId now out = (out', inr b)) /\
    (forall out1 e,
       verify_body decode licenseKey instanceId now out = (out1, inl e) ->
       verifyLicenseWith decode licenseKey instanceId now out =
         (app out1 [LError "Error verifying license:" (Some e)], inr false)).
Proof.
  intros decode licenseKey instanceId now out.
  unfold verifyLicenseWith, try_catch.
  split.
  - destruct (verify_body decode licenseKey instanceId now out) as [out1 [e | b]].
    + cbn. eexists _, false. reflexivity.
    + eexists _, b. reflexivity.
  - intros out1 e ->. reflexivity.
Qed.

(** Claim C10. [checkCodeIntegrity] always returns [true], so no run of
    [initializeWatermarking], for any environment, clock, HMAC
    primitive or time zone, writes the "Code integrity violation
    detected" error. *)
Theorem initializeWatermarking_no_integrity_error :
  checkCodeIntegrity tt = true /\
  forall (hmac : string -> string -> string) (offset : Z -> Z) (env : Env)
         (clk : Clock) (detail : option jsexn),
    ~ In (LError "Code integrity violation detected" detail)
         (fst (run (initializeWatermarking hmac offset env clk))).
Proof.
  split; [reflexivity | ].
  intros hmac offset env clk detail.
  unfold initializeWatermarking, verifyLicense, verifyLicenseWith, verify_body,
    decodeLicenseKey, checkCodeIntegrity. unfold_M.
  cbn [expiresAt allowedInstances negb].
  repeat case_match; simplify_eq/=; intros Hin;
    repeat (destruct Hin as [Hin | Hin]; [discriminate | ]); exact Hin.
Qed.

(** ** The Vite plugin *)

Lemma str_app_nil (y : string) : "" ++ y = y.
Proof. reflexivity. Qed.

Lemma str_app_cons (c : ascii) (x y : string) : String c x ++ y = String c (x ++ y).
Proof. reflexivity. Qed.

Lemma str_length_app (x y : string) :
  String.length (x ++ y) = (String.length x + String.length y)%nat.
Proof.
  induction x as [ | c x IH];
    [reflexivity | rewrite str_app_cons; simpl; rewrite IH; reflexivity].
Qed.

Lemma str_app_assoc (x y z : string) : (x ++ y) ++ z = x ++ (y ++ z).
Proof.
  induction x as [ | c x IH];
    [reflexivity | rewrite !str_app_cons, IH; reflexivity].
Qed.

Lemma substring_whole (y : string) : substring 0 (String.length y) y = y.
Proof. induction y as [ | c y IH]; simpl; [reflexivity | rewrite IH; reflexivity]. Qed.

Lemma substring_after (x y : string) (n : nat) :
  substring (String.length x) n (x ++ y) = substring 0 n y.
Proof.
  induction x as [ | c x IH]; [reflexivity | rewrite str_app_cons; simpl; exact IH].
Qed.

Lemma endsWith_app (x y : string) : JsString.endsWith (x ++ y) y = true.
Proof.
  unfold JsString.endsWith. rewrite str_length_app.
  replace (String.length x + String.length y - String.length y)%nat
    with (String.length x) by lia.
  rewrite substring_after, substring_whole, String.eqb_refl.
  rewrite andb_true_r. apply Nat.leb_le. lia.
Qed.

Lemma endsWith_close_comment (x : string) : JsString.endsWith (x ++ " */") "*/" = true.
Proof.
  replace (x ++ " */") with ((x ++ " ") ++ "*/") by (rewrite str_app_assoc; reflexivity).
  apply endsWith_app.
Qed.

(** Claim C2. [transform(code, id)] returns [null] exactly when [id]
    contains a pattern of the exclude list or ends with no extension of
    the include list; otherwise it returns a block comment ([/* ... */])
    followed by a newline and then [code] unchanged. *)
Theorem transform_preserves_code :
  forall (env : Env) (now : Z) (options : PluginOptions) (code id : string),
    (transform (watermarkPlugin env now options) code id = None <->
       (existsb (fun pattern => JsString.includes id pattern)
                (default default_exclude (exclude options)) = true \/
        existsb (fun ext => JsString.endsWith id ext)
                (default default_include (include options)) = false)) /\
    (forall r, transform (watermarkPlugin env now options) code id = Some r ->
       exists w, r = w ++ newline ++ code /\
                 JsString.startsWith w "/*" = true /\
                 JsString.endsWith w "*/" = true).
Proof.
  intros env now options code id.
  cbn [transform watermarkPlugin].
  destruct (existsb _ (default default_exclude (exclude options))) eqn:Hex; cbn.
  - split; [split; [intros _; left; reflexivity | reflexivity] | discriminate].
  - destruct (existsb _ (default default_include (include options))) eqn:Hin; cbn.
    + split.
      * split; [discriminate | intros [H | H]; discriminate].
      * intros r Hr. injection Hr as <-.
        eexists. split; [reflexivity | ].
        destruct (default false (encodeWatermark options)).
        -- split; [reflexivity | rewrite <- str_app_assoc; apply endsWith_close_comment].
        -- split; [ | apply endsWith_close_comment].
           case_match; reflexivity.
    + split; [split; [intros _; right; reflexivity | reflexivity] | discriminate].
Qed.

(** ** The SQL migration *)

Module SqlProps.
Import Sql.

(** The catalog after a statement: unchanged when it fails. *)
Definition after (st : Stmt) (s : Schema) : Schema :=
  match st s with inl _ => s | inr s' => s' end.

Lemma run_script_fst (script : list Stmt) (s : Schema) :
  fst (run_script script s) = fold_left (fun s st => after st s) script s.
Proof.
  revert s. induction script as [ | st rest IH]; intros s; [reflexivity | ].
  simpl. unfold after at 2. destruct (st s) as [err | s1].
  - destruct (run_script rest s) as [s' errs] eqn:E.
    simpl. rewrite <- IH, E. reflexivity.
  - apply IH.
Qed.

Lemma type_exists_after_create (s : Schema) :
  type_exists (after do_create_transaction_type s) "transaction_type" = true.
Proof.
  unfold after, do_create_transaction_type, create_enum.
  destruct (type_exists s "transaction_type") eqn:E; simpl; [exact E | ].
  unfold type_exists; simpl. rewrite lookup_insert_eq. reflexivity.
Qed.

Lemma tables_after_create (s : Schema) :
  tables (after do_create_transaction_type s) = tables s.
Proof.
  unfold after, do_create_transaction_type, create_enum.
  destruct (type_exists s "transaction_type") eqn:E; simpl; rewrite ?E; reflexivity.
Qed.

Lemma create_noop (s : Schema) :
  type_exists s "transaction_type" = true -> do_create_transaction_type s = inr s.
Proof. intros E. unfold do_create_transaction_type. rewrite E. reflexivity. Qed.

Lemma types_after_add (s : Schema) :
  types (after do_add_check_interval s) = types s.
Proof.
  unfold after, do_add_check_interval, add_column.
  repeat case_match; simplify_eq/=; reflexivity.
Qed.

Lemma table_present_after_add (s : Schema) (n : string) :
  is_Some (tables s !! n) -> is_Some (tables (after do_add_check_interval s) !! n).
Proof.
  intros H. unfold after, do_add_check_interval, add_column.
  repeat case_match; simplify_eq/=; try exact H.
  apply lookup_insert_is_Some'. right. exact H.
Qed.

Lemma type_exists_after_add (s : Schema) (n : string) :
  type_exists s n = true -> type_exists (after do_add_check_interval s) n = true.
Proof.
  unfold type_exists. rewrite types_after_add.
  intros H. apply orb_true_iff in H. apply orb_true_iff.
  destruct H as [H | H]; [left; exact H | right].
  apply bool_decide_eq_true in H. apply bool_decide_eq_true.
  apply table_present_after_add. exact H.
Qed.

Lemma add_noop (s : Schema) :
  column_exists s "synthetic_transactions" "check_interval" = true ->
  do_add_check_interval s = inr s.
Proof. intros E. unfold do_add_check_interval. rewrite E. reflexivity. Qed.

Lemma after_add_cases (s : Schema) :
  after do_add_check_interval s = s \/
  column_exists (after do_add_check_interval s) "synthetic_transactions" "check_interval" = true.
Proof.
  unfold after, do_add_check_interval, add_column.
  destruct (column_exists s "synthetic_transactions" "check_interval"); simpl;
    [left; reflexivity | ].
  destruct (tables s !! "synthetic_transactions") as [tb | ]; [ | left; reflexivity].
  destruct (existsb _ (columns tb)); simpl; [left; reflexivity | ].
  right. unfold column_exists. simpl. rewrite lookup_insert_eq. simpl.
  rewrite existsb_app. simpl. apply orb_true_r.
Qed.

Lemma after_add_idem (s : Schema) :
  after do_add_check_interval (after do_add_check_interval s) =
  after do_add_check_interval s.
Proof.
  destruct (after_add_cases s) as [E | E].
  - rewrite E. exact E.
  - unfold after at 1. rewrite add_noop by exact E. reflexivity.
Qed.

(** Claim C3. On a catalog with no type named [transaction_type] and a
    table [synthetic_transactions] without a [check_interval] column,
    the migration runs without error, creates [transaction_type] as the
    enum [('api', 'content', 'form', 'navigation')], and appends to the
    table the column [check_interval integer NOT NULL DEFAULT 300],
    every existing row taking the value 300. *)
Theorem migration_creates_enum_and_column (s : Schema) (t : Table)
  (Htype : type_exists s "transaction_type" = false)
  (Htable : tables s !! "synthetic_transactions" = Some t)
  (Hcol : column_exists s "synthetic_transactions" "check_interval" = false) :
  exists s',
    run_script migration s = (s', []) /\
    types s' !! "transaction_type" =
      Some (EnumType ["api"; "content"; "form"; "navigation"]) /\
    tables s' !! "synthetic_transactions" =
      Some {| columns := app (columns t)
                [{| col_name := "check_interval"; col_type := TInteger;
                    col_not_null := true; col_default := Some (VInt 300) |}];
              rows := map (fun r => app r [VInt 300]) (rows t) |}.
Proof.
  assert (Hcols : existsb (fun c => String.eqb (col_name c) "check_interval") (columns t)
                  = false) by (unfold column_exists in Hcol; rewrite Htable in Hcol; exact Hcol).
  eexists. split; [ | split].
  - unfold run_script, migration, do_create_transaction_type, create_enum.
    rewrite Htype. simpl.
    unfold do_add_check_interval, column_exists, add_column. simpl.
    rewrite Htable. simpl. rewrite Hcols. simpl. reflexivity.
  - simpl. rewrite lookup_insert_eq. reflexivity.
  - simpl. rewrite lookup_insert_eq. reflexivity.
Qed.

(** The migration on [example_catalog]. *)
Lemma migration_creates_enum_and_column_witness :
  type_exists example_catalog "transaction_type" = false /\
  tables example_catalog !! "synthetic_transactions" = Some example_table /\
  column_exists example_catalog "synthetic_transactions" "check_interval" = false /\
  exists s',
    run_script migration example_catalog = (s', []) /\
    types s' !! "transaction_type" =
      Some (EnumType ["api"; "content"; "form"; "navigation"]) /\
    tables s' !! "synthetic_transactions" =
      Some {| columns := app (columns example_table)
                [{| col_name := "check_interval"; col_type := TInteger;
                    col_not_null := true; col_default := Some (VInt 300) |}];
              rows := map (fun r => app r [VInt 300]) (rows example_table) |}.
Proof.
  assert (H1 : type_exists example_catalog "transaction_type" = false) by (vm_compute; reflexivity).
  assert (H2 : tables example_catalog !! "synthetic_transactions" = Some example_table)
    by reflexivity.
  assert (H3 : column_exists example_catalog "synthetic_transactions" "check_interval"
               = false) by (vm_compute; reflexivity).
  split; [exact H1 | split; [exact H2 | split; [exact H3 | ]]].
  exact (migration_creates_enum_and_column example_catalog example_table H1 H2 H3).
Defined.

Lemma after_create_noop (s : Schema) :
  type_exists s "transaction_type" = true -> after do_create_transaction_type s = s.
Proof. intros E. unfold after. rewrite create_noop by exact E. reflexivity. Qed.

Lemma column_exists_after_create (s : Schema) (t c : string) :
  column_exists (after do_create_transaction_type s) t c = column_exists s t c.
Proof. unfold column_exists. rewrite tables_after_create. reflexivity. Qed.

(** Claim C4. The migration is idempotent: running it on the catalog it
    produced changes nothing (whether or not its first run reported an
    error). Its first block leaves the types alone when a type named
    [transaction_type] exists, its second leaves the tables alone when
    [synthetic_transactions] has a [check_interval] column, and on a
    catalog where both exist the script changes nothing and reports no
    error. *)
Theorem migration_idempotent (s : Schema) :
  fst (run_script migration (fst (run_script migration s))) = fst (run_script migration s) /\
  (type_exists s "transaction_type" = true ->
     types (fst (run_script migration s)) = types s) /\
  (column_exists s "synthetic_transactions" "check_interval" = true ->
     tables (fst (run_script migration s)) = tables s) /\
  (type_exists s "transaction_type" = true ->
   column_exists s "synthetic_transactions" "check_interval" = true ->
   run_script migration s = (s, [])).
Proof.
  rewrite !run_script_fst. cbn [fold_left migration].
  split; [ | split; [ | split]].
  - rewrite (after_create_noop (after do_add_check_interval _)).
    + apply after_add_idem.
    + apply type_exists_after_add, type_exists_after_create.
  - intros E. rewrite types_after_add, after_create_noop by exact E. reflexivity.
  - intros E. unfold after at 1.
    rewrite add_noop by (rewrite column_exists_after_create; exact E).
    apply tables_after_create.
  - intros Et Ec. unfold run_script, migration.
    rewrite create_noop by exact Et. rewrite add_noop by exact Ec. reflexivity.
Qed.

End SqlProps.

(** ** Configuration *)

(** Claim C5. The two defaults of the check interval differ: the
    migration's [check_interval] column defaults to 300 while
    [monitoringConfig.defaultCheckInterval] is 60. The two are defined
    independently: no definition of the embedding combines them. *)
Theorem check_interval_defaults_disagree :
  Sql.col_default Sql.check_interval_column = Some (Sql.VInt 300) /\
  Config.defaultCheckInterval Config.monitoringConfig = 60 /\
  Sql.col_default Sql.check_interval_column <>
    Some (Sql.VInt (Config.defaultCheckInterval Config.monitoringConfig)).
Proof. split; [reflexivity | split; [reflexivity | discriminate]]. Qed.

(** Claim C6. [monitoringConfig] sets [defaultTimeout] to 30 seconds,
    [maxRetries] to 3, [retryDelay] to 5 seconds and [metricRetention]
    to 365 days. *)
Theorem monitoringConfig_defaults :
  Config.defaultTimeout Config.monitoringConfig = 30 /\
  Config.maxRetries Config.monitoringConfig = 3 /\
  Config.retryDelay Config.monitoringConfig = 5 /\
  Config.metricRetention Config.monitoringConfig = 365.
Proof. repeat split. Qed.

(** Claim C7 as stated fails: with [SMTP_HOST] set to the empty string
    (and nothing else set), the variable is present but e-mail is not
    enabled. *)
Lemma email_disabled_with_empty_smtp_host :
  ~ (forall env : Env,
       Config.email_enabled (Config.email (Config.notificationConfig env)) = true <->
       env "SMTP_HOST" <> None).
Proof.
  intros H.
  specialize (H (fun x => if String.eqb x "SMTP_HOST" then Some "" else None)).
  vm_compute in H. destruct H as [_ H].
  assert (false = true) by (apply H; discriminate). discriminate.
Qed.

Lemma truthy_iff (v : option string) :
  JsString.truthy v = true <-> exists s, v = Some s /\ s <> "".
Proof.
  destruct v as [s | ]; simpl.
  - rewrite negb_true_iff, String.eqb_neq. split.
    + intros H. exists s. split; [reflexivity | exact H].
    + intros (s' & Hs & H). injection Hs as <-. exact H.
  - split; [discriminate | intros (s' & Hs & _); discriminate].
Qed.

(** Claim C7 (amended). A notification channel is enabled exactly when
    its credential variable is set to a non-empty string: e-mail by
    [SMTP_HOST], SMS and voice calls both by [TWILIO_ACCOUNT_SID]. *)
Theorem notification_enabled_iff_nonempty_env :
  forall env : Env,
    (Config.email_enabled (Config.email (Config.notificationConfig env)) = true <->
       exists v, env "SMTP_HOST" = Some v /\ v <> "") /\
    (Config.twilio_enabled (Config.sms (Config.notificationConfig env)) = true <->
       exists v, env "TWILIO_ACCOUNT_SID" = Some v /\ v <> "") /\
    (Config.twilio_enabled (Config.call (Config.notificationConfig env)) = true <->
       exists v, env "TWILIO_ACCOUNT_SID" = Some v /\ v <> "").
Proof.
  intros env. cbn [Config.notificationConfig Config.email Config.sms Config.call
                   Config.email_enabled Config.twilio Config.twilio_enabled].
  unfold Config.env_flag. split; [ | split]; apply truthy_iff.
Qed.

(** ** Retry Coordinator *)

Module RetryProps.
Import Retry.

Lemma probeExecutor_bounds (t : Z) (raw : Outcome * Z) :
  0 <= t -> 0 <= snd raw -> 0 <= snd (probeExecutor t raw) <= t.
Proof.
  destruct raw as [o d]. unfold probeExecutor. simpl.
  destruct (t <? d) eqn:E; simpl; intros; [lia | apply Z.ltb_ge in E; lia].
Qed.

Section AlwaysFailing.

Variable p : Policy.
Variable probe : Probe.
Hypothesis Htimeout : 0 <= timeout p.
Hypothesis Hdur : forall n, 0 <= snd (probe n).
Hypothesis Hfail : forall n, fst (probeExecutor (timeout p) (probe n)) = Failure.

Lemma retry_loop_always_failing (fuel n : nat) (t : Z) (made : list nat) :
  outcome (retry_loop p probe fuel n t made) = Failure /\
  attempt (retry_loop p probe fuel n t made) = (n + fuel)%nat /\
  attempts_made (retry_loop p probe fuel n t made) = app made (seq n (S fuel)) /\
  t + Z.of_nat fuel * retryDelay p <= elapsed (retry_loop p probe fuel n t made) <=
    t + Z.of_nat (S fuel) * timeout p + Z.of_nat fuel * retryDelay p.
Proof.
  revert n t made. induction fuel as [ | f IH]; intros n t made; simpl;
    pose proof (Hfail n) as Hf;
    pose proof (probeExecutor_bounds (timeout p) (probe n) Htimeout (Hdur n)) as Hb;
    destruct (probeExecutor (timeout p) (probe n)) as [o d]; simpl in Hf, Hb; subst o.
  - simpl. repeat split; try reflexivity; lia.
  - destruct (IH (S n) (t + d + retryDelay p) (app made [n])) as (Ho & Ha & Hm & Hlo & Hhi).
    repeat split.
    + exact Ho.
    + rewrite Ha. lia.
    + rewrite Hm, <- app_assoc. reflexivity.
    + nia.
    + nia.
Qed.

End AlwaysFailing.

(** Claim C8 (modelled from the spec). Under the configured policy
    (timeout 30 s, 3 retries, 5 s between attempts), a check whose
    every attempt fails makes exactly the attempts 1, 2, 3 and 4 and
    ends with outcome [Failure] after between 15 and 135 seconds. *)
Theorem always_failing_check_default_policy (probe : Probe)
  (Hdur : forall n, 0 <= snd (probe n))
  (Hfail : forall n, fst (probeExecutor (timeout default_policy) (probe n)) = Failure) :
  attempts_made (runCheck default_policy probe) = [1; 2; 3; 4]%nat /\
  attempt (runCheck default_policy probe) = 4%nat /\
  outcome (runCheck default_policy probe) = Failure /\
  15 <= elapsed (runCheck default_policy probe) <= 135.
Proof.
  unfold runCheck.
  destruct (retry_loop_always_failing default_policy probe
              ltac:(unfold default_policy; simpl; lia) Hdur Hfail (maxRetries default_policy) 1 0 [])
    as (Ho & Ha & Hm & Hlo & Hhi).
  change (maxRetries default_policy) with 3%nat in *.
  change (retryDelay default_policy) with 5 in *.
  change (timeout default_policy) with 30 in *.
  remember (retry_loop default_policy probe 3 1 0 []) as r eqn:Er; clear Er.
  cbn in Ha, Hm, Hlo, Hhi. repeat split; [exact Hm | exact Ha | exact Ho | lia | lia].
Qed.

(** An instance: every attempt fails after 10 seconds. *)
Lemma always_failing_check_default_policy_witness :
  (forall n, 0 <= snd ((fun _ : nat => (Failure, 10)) n)) /\
  (forall n, fst (probeExecutor (timeout default_policy) ((fun _ : nat => (Failure, 10)) n))
             = Failure) /\
  attempts_made (runCheck default_policy (fun _ => (Failure, 10))) = [1; 2; 3; 4]%nat /\
  attempt (runCheck default_policy (fun _ => (Failure, 10))) = 4%nat /\
  outcome (runCheck default_policy (fun _ => (Failure, 10))) = Failure /\
  15 <= elapsed (runCheck default_policy (fun _ => (Failure, 10))) <= 135.
Proof.
  assert (H1 : forall n, 0 <= snd ((fun _ : nat => (Failure, 10)) n)) by (intros; simpl; lia).
  assert (H2 : forall n, fst (probeExecutor (timeout default_policy)
                               ((fun _ : nat => (Failure, 10)) n)) = Failure)
    by (intros; reflexivity).
  split; [exact H1 | split; [exact H2 | ]].
  exact (always_failing_check_default_policy (fun _ => (Failure, 10)) H1 H2).
Defined.

End RetryProps.

(* ================================================================== *)
(** * Further properties of the watermarking module *)

Module WatermarkProps.
Import JsReplace.

Lemma has_char_app (c : ascii) (x y : string) :
  has_char c (x ++ y) = has_char c x || has_char c y.
Proof.
  induction x as [ | d x IH]; [reflexivity | ].
  rewrite str_app_cons. simpl. rewrite IH. apply orb_assoc.
Qed.

Lemma startsWith_app (s t p : string) :
  JsString.startsWith s p = true -> JsString.startsWith (s ++ t) p = true.
Proof.
  revert s. induction p as [ | a p IH]; intros s H; [destruct (s ++ t); reflexivity | ].
  destruct s as [ | b s]; [discriminate | ].
  rewrite str_app_cons. simpl in *. apply andb_true_iff in H as [H1 H2].
  rewrite H1, (IH s H2). reflexivity.
Qed.

Lemma startsWith_drop (s p : string) :
  JsString.startsWith s p = true -> s = p ++ drop (String.length p) s.
Proof.
  revert s. induction p as [ | a p IH]; intros s H; [reflexivity | ].
  destruct s as [ | b s]; [discriminate | ].
  simpl in H. apply andb_true_iff in H as [H1 H2].
  apply Ascii.eqb_eq in H1. subst b. rewrite str_app_cons. simpl. f_equal. apply IH, H2.
Qed.

Lemma split_first_none (pat s : string) :
  split_first pat s = None -> JsString.includes s pat = false.
Proof.
  induction s as [ | c s IH].
  - destruct pat; simpl; [discriminate | reflexivity].
  - cbn [split_first JsString.includes]. destruct (JsString.startsWith (String c s) pat); [discriminate | ].
    destruct (split_first pat s) as [[pre post] | ]; [discriminate | ].
    intros _. apply IH. reflexivity.
Qed.

Lemma split_first_includes (pat s : string) pre post :
  split_first pat s = Some (pre, post) -> JsString.includes s pat = true.
Proof.
  revert pre post. induction s as [ | c s IH]; intros pre post.
  - destruct pat; simpl; [reflexivity | discriminate].
  - cbn [split_first JsString.includes]. destruct (JsString.startsWith (String c s) pat); [reflexivity | ].
    destruct (split_first pat s) as [[pre' post'] | ] eqn:E; [ | discriminate].
    intros _. rewrite (IH pre' post' eq_refl). apply orb_true_r.
Qed.

Lemma split_first_some (pat s : string) pre post :
  pat <> "" -> split_first pat s = Some (pre, post) ->
  s = pre ++ pat ++ post /\ JsString.includes pre pat = false.
Proof.
  intros Hp. revert pre post.
  induction s as [ | c s IH]; intros pre post H; cbn [split_first] in H;
    [destruct (JsString.startsWith "" pat) eqn:Hs
    | destruct (JsString.startsWith (String c s) pat) eqn:Hs].
  - injection H as <- <-. split; [apply startsWith_drop, Hs | ].
    destruct pat; [contradiction | reflexivity].
  - discriminate.
  - injection H as <- <-. split; [apply startsWith_drop, Hs | ].
    destruct pat; [contradiction | reflexivity].
  - destruct (split_first pat s) as [[pre' post'] | ] eqn:E; [ | discriminate].
    injection H as <- <-. destruct (IH pre' post' eq_refl) as [Hs' Hi].
    split; [rewrite str_app_cons, <- Hs'; reflexivity | ].
    cbn [JsString.includes]. rewrite Hi, orb_false_r.
    destruct (JsString.startsWith (String c pre') pat) eqn:Hc; [ | reflexivity].
    apply (startsWith_app _ (pat ++ post')) in Hc.
    rewrite str_app_cons, <- Hs' in Hc. congruence.
Qed.

Lemma getSubstitution_no_dollar (m b a rep : string) :
  has_char "$"%char rep = false -> getSubstitution m b a rep = rep.
Proof.
  induction rep as [ | c r IH]; intros H; [reflexivity | ].
  simpl in H. apply orb_false_iff in H as [Hc Hr].
  simpl. rewrite Hc, (IH Hr). reflexivity.
Qed.

Lemma pretty_N_go_no_dollar (x : N) (s : string) :
  has_char "$"%char (pretty_N_go x s) = has_char "$"%char s.
Proof.
  revert s. induction (N.lt_wf_0 x) as [x _ IH]; intros s.
  assert (x = 0 \/ 0 < x)%N as [-> | Hx] by lia; [reflexivity | ].
  rewrite pretty_N_go_step by exact Hx.
  rewrite IH by (apply N.div_lt; lia). simpl.
  unfold pretty_N_char. repeat case_match; reflexivity.
Qed.

Lemma of_Z_no_dollar (z : Z) : has_char "$"%char (JsString.of_Z z) = false.
Proof.
  unfold JsString.of_Z. cbv [pretty pretty_Z pretty_positive pretty_N].
  destruct z as [ | p | p]; [reflexivity | | ].
  - case_decide; [reflexivity | ]. rewrite pretty_N_go_no_dollar. reflexivity.
  - rewrite has_char_app. case_decide; [reflexivity | ].
    rewrite pretty_N_go_no_dollar. reflexivity.
Qed.

(** [transformIndexHtml] leaves a page without [</head>] unchanged, and
    otherwise inserts the build-id meta line (indented, followed by a
    newline) just before the first [</head>], keeping the rest of the
    page as it is. *)
Theorem transformIndexHtml_inserts_meta (buildId : Z) (html : string) :
  (JsString.includes html "</head>" = false -> transformIndexHtml buildId html = html) /\
  (JsString.includes html "</head>" = true ->
   exists pre post,
     html = pre ++ "</head>" ++ post /\
     JsString.includes pre "</head>" = false /\
     transformIndexHtml buildId html =
       pre ++ "  " ++ buildMeta buildId ++ newline ++ "</head>" ++ post).
Proof.
  unfold transformIndexHtml, replace.
  destruct (split_first "</head>" html) as [[pre post] | ] eqn:E.
  - pose proof (split_first_includes _ _ _ _ E) as Hin.
    destruct (split_first_some "</head>" html pre post ltac:(discriminate) E) as [Hs Hi].
    split; [intros H; congruence | intros _].
    exists pre, post. split; [exact Hs | split; [exact Hi | ]].
    rewrite getSubstitution_no_dollar.
    + rewrite !str_app_assoc. reflexivity.
    + unfold buildMeta. rewrite !has_char_app, of_Z_no_dollar. reflexivity.
  - pose proof (split_first_none _ _ E) as Hin.
    split; [reflexivity | intros H; congruence].
Qed.

Lemma get_In (i : nat) (s : string) (c : ascii) :
  String.get i s = Some c -> In c (list_ascii_of_string s).
Proof.
  revert i. induction s as [ | d s IH]; intros [ | i] H; simpl in *; try discriminate.
  - left. congruence.
  - right. exact (IH i H).
Qed.

Lemma base64_char_not_star (n : Z) : Ascii.eqb (Base64.char n) "*"%char = false.
Proof.
  unfold Base64.char.
  destruct (String.get (Z.to_nat n) Base64.alphabet) as [c | ] eqn:E; [ | reflexivity].
  apply get_In in E.
  assert (Hall : forallb (fun d => negb (Ascii.eqb d "*"%char))
                   (list_ascii_of_string Base64.alphabet) = true) by reflexivity.
  rewrite forallb_forall in Hall. apply negb_true_iff, Hall, E.
Qed.

Lemma base64_no_star (l : list Z) : has_char "*"%char (Base64.encode_bytes l) = false.
Proof.
  revert l. fix IH 1. intros l.
  destruct l as [ | a [ | b [ | c rest]]]; cbn [Base64.encode_bytes has_char];
    rewrite ?base64_char_not_star; try reflexivity.
  apply IH.
Qed.

Lemma no_star_no_close (s : string) :
  has_char "*"%char s = false -> JsString.includes s "*/" = false.
Proof.
  induction s as [ | a s IH]; intros H; [reflexivity | ].
  cbn [has_char] in H. apply orb_false_iff in H as [Ha Hs].
  cbn [JsString.includes JsString.startsWith].
  rewrite Ascii.eqb_sym, Ha, (IH Hs). reflexivity.
Qed.

(** With [encodeWatermark], the watermark [transform] puts before the
    code is one block comment whatever the license holder, version or
    custom text: its text between [/*] and [*/] (a space, base64, a
    space) never contains [*/]. *)
Theorem encoded_watermark_single_comment (env : Env) (now : Z) (options : PluginOptions)
  (code id r : string)
  (Henc : encodeWatermark options = Some true)
  (Hr : transform (watermarkPlugin env now options) code id = Some r) :
  exists inner,
    r = "/*" ++ inner ++ "*/" ++ newline ++ code /\
    JsString.includes inner "*/" = false.
Proof.
  revert Hr. cbn [transform watermarkPlugin]. rewrite Henc. cbn [default].
  destruct (existsb _ (default default_exclude (exclude options))); [discriminate | ].
  destruct (existsb _ (default default_include (include options))); [ | discriminate].
  cbn [negb]. intros Hr. injection Hr as <-.
  match goal with |- context [Base64.of_string ?w] =>
    exists (" " ++ Base64.of_string w ++ " ") end.
  split.
  - rewrite !str_app_assoc. reflexivity.
  - apply no_star_no_close. rewrite !has_char_app. unfold Base64.of_string.
    rewrite base64_no_star. reflexivity.
Qed.

Lemma encoded_watermark_single_comment_witness :
  encodeWatermark {| licenseHolder := Some "A */ B"; version := None; exclude := None;
                     include := None; customText := Some "x */ y";
                     encodeWatermark := Some true |} = Some true /\
  transform (watermarkPlugin (fun _ => None) 1700
    {| licenseHolder := Some "A */ B"; version := None; exclude := None;
       include := None; customText := Some "x */ y"; encodeWatermark := Some true |})
    "f();" "src/main.ts" =
  Some (default "" (transform (watermarkPlugin (fun _ => None) 1700
    {| licenseHolder := Some "A */ B"; version := None; exclude := None;
       include := None; customText := Some "x */ y"; encodeWatermark := Some true |})
    "f();" "src/main.ts")) /\
  exists inner,
    default "" (transform (watermarkPlugin (fun _ => None) 1700
      {| licenseHolder := Some "A */ B"; version := None; exclude := None;
         include := None; customText := Some "x */ y"; encodeWatermark := Some true |})
      "f();" "src/main.ts") = "/*" ++ inner ++ "*/" ++ newline ++ "f();" /\
    JsString.includes inner "*/" = false.
Proof.
  assert (H1 : encodeWatermark {| licenseHolder := Some "A */ B"; version := None;
                 exclude := None; include := None; customText := Some "x */ y";
                 encodeWatermark := Some true |} = Some true) by reflexivity.
  assert (H2 : transform (watermarkPlugin (fun _ => None) 1700
    {| licenseHolder := Some "A */ B"; version := None; exclude := None;
       include := None; customText := Some "x */ y"; encodeWatermark := Some true |})
    "f();" "src/main.ts" =
  Some (default "" (transform (watermarkPlugin (fun _ => None) 1700
    {| licenseHolder := Some "A */ B"; version := None; exclude := None;
       include := None; customText := Some "x */ y"; encodeWatermark := Some true |})
    "f();" "src/main.ts"))) by reflexivity.
  split; [exact H1 | split; [exact H2 | ]].
  exact (encoded_watermark_single_comment _ _ _ _ _ _ H1 H2).
Defined.

(** Without custom text and without encoding, the watermark [transform]
    puts before the code is exactly [generateBuildWatermark] of the
    plugin's license holder and version at its build id. *)
Theorem plain_watermark_is_build_watermark (env : Env) (now : Z) (options : PluginOptions)
  (code id r : string)
  (Htext : JsString.truthy (customText options) = false)
  (Henc : encodeWatermark options <> Some true)
  (Hr : transform (watermarkPlugin env now options) code id = Some r) :
  r = generateBuildWatermark
        (default (JsString.or_default (env "LICENSE_HOLDER") "Unregistered")
           (licenseHolder options))
        (default (JsString.or_default (env "npm_package_version") "1.0.0") (version options))
        now
      ++ newline ++ code.
Proof.
  assert (Htext' : JsString.truthy (Some (default "" (customText options))) = false)
    by (destruct (customText options); [exact Htext | reflexivity]).
  assert (Henc' : default false (encodeWatermark options) = false)
    by (destruct (encodeWatermark options) as [[ | ] | ]; [congruence | reflexivity ..]).
  revert Hr. cbn [transform watermarkPlugin]. rewrite Htext', Henc'.
  destruct (existsb _ (default default_exclude (exclude options))); [discriminate | ].
  destruct (existsb _ (default default_include (include options))); [ | discriminate].
  cbn [negb]. intros Hr. injection Hr as <-. unfold generateBuildWatermark.
  rewrite !str_app_assoc. reflexivity.
Qed.

Lemma plain_watermark_is_build_watermark_witness :
  JsString.truthy (customText no_options) = false /\
  encodeWatermark no_options <> Some true /\
  transform (watermarkPlugin (fun _ => None) 1700 no_options) "f();" "src/main.ts" =
    Some (default "" (transform (watermarkPlugin (fun _ => None) 1700 no_options)
                        "f();" "src/main.ts")) /\
  default "" (transform (watermarkPlugin (fun _ => None) 1700 no_options) "f();" "src/main.ts")
  = generateBuildWatermark "Unregistered" "1.0.0" 1700 ++ newline ++ "f();".
Proof.
  assert (H1 : JsString.truthy (customText no_options) = false) by reflexivity.
  assert (H2 : encodeWatermark no_options <> Some true) by discriminate.
  assert (H3 : transform (watermarkPlugin (fun _ => None) 1700 no_options) "f();" "src/main.ts" =
    Some (default "" (transform (watermarkPlugin (fun _ => None) 1700 no_options)
                        "f();" "src/main.ts"))) by reflexivity.
  split; [exact H1 | split; [exact H2 | split; [exact H3 | ]]].
  exact (plain_watermark_is_build_watermark _ _ _ _ _ _ H1 H2 H3).
Defined.

End WatermarkProps.

Module LicenseProps.

(** The outcomes of [verifyLicense] with the placeholder decoder and what
    each writes to the console: the expiry is checked before the
    instance, so at most one warning is written, and none on success. *)
Theorem verifyLicense_console (licenseKey instanceId : string) (now : Z) :
  (now <= 1798675200000 /\ In instanceId ["default-instance"; "production-1"; "staging-1"] /\
   run (verifyLicense licenseKey instanceId now) = ([], inr true)) \/
  (1798675200000 < now /\
   run (verifyLicense licenseKey instanceId now) = ([LWarn "License has expired"], inr false)) \/
  (now <= 1798675200000 /\ ~ In instanceId ["default-instance"; "production-1"; "staging-1"] /\
   run (verifyLicense licenseKey instanceId now) =
     ([LWarn "Instance ID not authorized for this license"], inr false)).
Proof.
  unfold verifyLicense, verifyLicenseWith, verify_body, decodeLicenseKey. unfold_M.
  cbn [expiresAt allowedInstances].
  rewrite (placeholder_expiry_time : JsDate.of_value (Some "2026-12-31") = Some 1798675200000).
  unfold JsDate.lt.
  destruct (1798675200000 <? now) eqn:Hlt.
  - apply Z.ltb_lt in Hlt. right; left. split; [exact Hlt | reflexivity].
  - apply Z.ltb_ge in Hlt.
    destruct (list_includes ["default-instance"; "production-1"; "staging-1"] instanceId)
      eqn:Hi.
    + left. split; [exact Hlt | split; [exact (proj1 (list_includes_In _ _) Hi) | ]].
      reflexivity.
    + right; right. split; [exact Hlt | split].
      * intros Hin. apply list_includes_In in Hin. congruence.
      * reflexivity.
Qed.

(** [initializeWatermarking] never throws and always ends by writing the
    base64 of the source watermark, computed from [WATERMARK_KEY] (or
    ["default-key"]) and [INSTANCE_ID] (or ["default-instance"]); with
    no (or an empty) [LICENSE_KEY] the only line before it is the
    unregistered-mode warning. *)
Theorem initializeWatermarking_output (hmac : string -> string -> string) (offset : Z -> Z)
  (env : Env) (clk : Clock) :
  exists pre,
    run (initializeWatermarking hmac offset env clk) =
      (app pre [LDebug ("Application initialized " ++
                 Base64.of_string
                   (generateSourceWatermark hmac offset
                      (JsString.or_default (env "WATERMARK_KEY") "default-key")
                      (JsString.or_default (env "INSTANCE_ID") "default-instance")
                      (t_stamp clk) (t_year clk)))], inr tt) /\
    (JsString.truthy (env "LICENSE_KEY") = false ->
     pre = [LWarn "Application running in unregistered mode"]).
Proof.
  unfold initializeWatermarking.
  remember (LDebug _) as dbg eqn:Edbg. clear Edbg.
  unfold verifyLicense, verifyLicenseWith, verify_body, decodeLicenseKey, checkCodeIntegrity.
  unfold_M. cbn [expiresAt allowedInstances negb].
  destruct (JsString.truthy (env "LICENSE_KEY")) eqn:Hk; cbn [negb].
  - destruct (JsDate.lt _ _); cbn -[list_includes].
    + match goal with |- exists pre, (?l, _) = _ /\ _ => exists (removelast l) end.
      split; [reflexivity | discriminate].
    + destruct (list_includes _ _); cbn;
        match goal with |- exists pre, (?l, _) = _ /\ _ => exists (removelast l) end;
        (split; [reflexivity | discriminate]).
  - cbn. match goal with |- exists pre, (?l, _) = _ /\ _ => exists (removelast l) end.
    split; reflexivity.
Qed.

(** [initializeWatermarking] reports an invalid license exactly when
    [LICENSE_KEY] is set to a non-empty string and the placeholder
    license is expired at the check time or does not list the instance
    ([INSTANCE_ID], or ["default-instance"] when unset or empty). *)
Theorem initializeWatermarking_invalid_license (hmac : string -> string -> string)
  (offset : Z -> Z) (env : Env) (clk : Clock) :
  In (LError "Invalid license detected" None)
     (fst (run (initializeWatermarking hmac offset env clk))) <->
  JsString.truthy (env "LICENSE_KEY") = true /\
  (1798675200000 < t_license clk \/
   ~ In (JsString.or_default (env "INSTANCE_ID") "default-instance")
        ["default-instance"; "production-1"; "staging-1"]).
Proof.
  unfold initializeWatermarking.
  remember (LDebug _) as dbg eqn:Edbg.
  remember (JsString.or_default (env "INSTANCE_ID") "default-instance") as inst eqn:Einst.
  clear Einst.
  unfold verifyLicense, verifyLicenseWith, verify_body, decodeLicenseKey, checkCodeIntegrity.
  unfold_M. cbn [expiresAt allowedInstances negb].
  rewrite (placeholder_expiry_time : JsDate.of_value (Some "2026-12-31") = Some 1798675200000).
  unfold JsDate.lt.
  destruct (JsString.truthy (env "LICENSE_KEY")) eqn:Hk; cbn [negb].
  - destruct (1798675200000 <? t_license clk) eqn:Hlt; cbn -[list_includes].
    + apply Z.ltb_lt in Hlt. subst dbg. split.
      * intros _. split; [reflexivity | left; exact Hlt].
      * intros _. right. left. reflexivity.
    + apply Z.ltb_ge in Hlt.
      destruct (list_includes ["default-instance"; "production-1"; "staging-1"] inst)
        eqn:Hi; cbn -[list_includes]; subst dbg.
      * split.
        -- intros [H | []]. discriminate.
        -- intros [_ [H | H]]; [lia | ].
           exfalso. exact (H (proj1 (list_includes_In _ _) Hi)).
      * split.
        -- intros _. split; [reflexivity | right].
           intros Hin.
           pose proof (proj2 (list_includes_In ["default-instance"; "production-1"; "staging-1"]
                                inst) Hin). congruence.
        -- intros _. right. left. reflexivity.
  - cbn. subst dbg. split.
    + intros [H | [H | []]]; discriminate.
    + intros [H _]. discriminate.
Qed.

End LicenseProps.

Module SqlMoreProps.
Import Sql SqlProps.

(** When [synthetic_transactions] does not exist, the migration reports
    exactly one error (for the [ALTER TABLE]), leaves the tables as they
    are and still ensures a type named [transaction_type] exists. *)
Theorem migration_without_table (s : Schema)
  (Hno : tables s !! "synthetic_transactions" = None) :
  exists s',
    run_script migration s = (s', ["relation synthetic_transactions does not exist"]) /\
    tables s' = tables s /\
    type_exists s' "transaction_type" = true.
Proof.
  exists (after do_create_transaction_type s).
  split; [ | split; [apply tables_after_create | apply type_exists_after_create]].
  unfold run_script, migration. unfold after.
  destruct (do_create_transaction_type s) as [err | s1] eqn:E.
  - exfalso. revert E. unfold do_create_transaction_type, create_enum.
    destruct (type_exists s "transaction_type"); discriminate.
  - assert (Ht : tables s1 = tables s).
    { pose proof (tables_after_create s) as H. unfold after in H. rewrite E in H. exact H. }
    unfold do_add_check_interval, column_exists, add_column. rewrite Ht, Hno. reflexivity.
Qed.

Lemma migration_without_table_witness :
  tables {| types := ∅; tables := ∅ |} !! "synthetic_transactions" = None /\
  exists s',
    run_script migration {| types := ∅; tables := ∅ |} =
      (s', ["relation synthetic_transactions does not exist"]) /\
    tables s' = tables {| types := ∅; tables := ∅ |} /\
    type_exists s' "transaction_type" = true.
Proof.
  assert (H : tables {| types := ∅; tables := ∅ |} !! "synthetic_transactions" = None)
    by reflexivity.
  split; [exact H | exact (migration_without_table _ H)].
Defined.

(** The migration touches no other object: every type other than
    [transaction_type] and every table other than
    [synthetic_transactions] is the same after it. *)
Theorem migration_frame (s : Schema) :
  (forall n, n <> "transaction_type" ->
     types (fst (run_script migration s)) !! n = types s !! n) /\
  (forall n, n <> "synthetic_transactions" ->
     tables (fst (run_script migration s)) !! n = tables s !! n).
Proof.
  rewrite run_script_fst. cbn [fold_left migration]. split; intros n Hn.
  - rewrite types_after_add. unfold after, do_create_transaction_type, create_enum.
    destruct (type_exists s "transaction_type"); cbn; [reflexivity | ].
    apply lookup_insert_ne. congruence.
  - rewrite <- (tables_after_create s).
    generalize (after do_create_transaction_type s) as s1. intros s1.
    unfold after, do_add_check_interval, add_column.
    repeat case_match; simplify_eq/=; try reflexivity.
    apply lookup_insert_ne. congruence.
Qed.

End SqlMoreProps.

Module SourceWatermarkProps.





End SourceWatermarkProps.
